(** * A shallow embedding of [src/api/main.py] (Acme Logistics load broker API)

    The FastAPI service exposes [GET /loads], [POST /carrier/verify] and
    [POST /call-log].  We embed the request handlers as pure functions in an
    outcome monad [pyres] recording the Python exception a handler raises; the file
    system and the FMCSA registry become explicit inputs. *)

From Stdlib Require Import String Ascii List ZArith QArith Bool Lia.
Import ListNotations.
Open Scope string_scope.
Open Scope Z_scope.
Set Warnings "-register-all".


(* ------------------------------------------------------------------ *)
(** ** JSON values, as produced by [json.load] / [response.json()] *)

Inductive json : Type :=
| JNull
| JBool (b : bool)
| JInt (z : Z)
| JFloat (q : Q)
| JStr (s : string)
| JArr (xs : list json)
| JObj (kvs : list (string * json)).

(** [json.loads] keeps the last binding of a duplicated key, so a Python
    dict lookup finds the last pair with that key. *)
Definition dict_lookup (kvs : list (string * json)) (k : string) : option json :=
  match find (fun kv => String.eqb (fst kv) k) (rev kvs) with
  | Some (_, v) => Some v
  | None => None
  end.

(* ------------------------------------------------------------------ *)
(** ** Python exceptions and the outcome of a handler *)

Inductive py_exc : Type :=
| HTTPException (status_code : Z) (detail : string)
| IndexError
| KeyError
| AttributeError
| TypeError
| ValidationError
| JSONDecodeError
| UnicodeDecodeError
| FileNotFoundError.

Inductive pyres (A : Type) : Type :=
| Return (a : A)
| Raise (e : py_exc).
Arguments Return {A} a.
Arguments Raise {A} e.

Definition bind {A B} (m : pyres A) (f : A -> pyres B) : pyres B :=
  match m with
  | Return a => f a
  | Raise e => Raise e
  end.

Notation "x <- m ;; k" := (bind m (fun x => k))
  (at level 61, m at next level, right associativity).

Fixpoint mapM {A B} (f : A -> pyres B) (xs : list A) : pyres (list B) :=
  match xs with
  | [] => Return []
  | x :: xs' => y <- f x ;; ys <- mapM f xs' ;; Return (y :: ys)
  end.

(** [x.get(k, default)]: only dicts have a [get] method. *)
Definition py_get (x : json) (k : string) (default : json) : pyres json :=
  match x with
  | JObj kvs =>
      match dict_lookup kvs k with
      | Some v => Return v
      | None => Return default
      end
  | _ => Raise AttributeError
  end.

(** [x[0]]: lists and strings are indexed, dicts are looked up by the key
    [0] (JSON keys are strings, so it is never there), other values are not
    subscriptable. *)
Definition py_index0 (x : json) : pyres json :=
  match x with
  | JArr (y :: _) => Return y
  | JArr [] => Raise IndexError
  | JStr (String c _) => Return (JStr (String c EmptyString))
  | JStr EmptyString => Raise IndexError
  | JObj _ => Raise KeyError
  | _ => Raise TypeError
  end.

(* ------------------------------------------------------------------ *)
(** ** Strings: [str.lower] and the [in] operator *)

(** [str.lower] on the ASCII range (the catalog is pure ASCII). *)
Definition lower_char (c : ascii) : ascii :=
  let n := nat_of_ascii c in
  if (65 <=? n)%nat && (n <=? 90)%nat then ascii_of_nat (n + 32) else c.

Fixpoint lower (s : string) : string :=
  match s with
  | EmptyString => EmptyString
  | String c s' => String (lower_char c) (lower s')
  end.

(** [needle in hay] for strings: substring test. *)
Fixpoint str_in (needle hay : string) : bool :=
  String.prefix needle hay ||
  match hay with
  | EmptyString => false
  | String _ hay' => str_in needle hay'
  end.

(** Python truthiness of an [Optional[str]] query parameter:
    [None] and [""] are falsy. *)
Definition truthy (o : option string) : option string :=
  match o with
  | Some s => if String.eqb s "" then None else Some s
  | None => None
  end.

(* ------------------------------------------------------------------ *)
(** ** The [Load] model and its pydantic validation *)

Record Load : Type := mkLoad {
  load_id : string;
  origin : string;
  destination : string;
  pickup_datetime : string;
  delivery_datetime : string;
  equipment_type : string;
  loadboard_rate : Q;
  notes : string;
  weight : Z;
  commodity_type : string;
  num_of_pieces : Z;
  miles : Z;
  dimensions : string
}.

Definition req_str (kvs : list (string * json)) (k : string) : pyres string :=
  match dict_lookup kvs k with
  | Some (JStr s) => Return s
  | _ => Raise ValidationError
  end.

Definition req_int (kvs : list (string * json)) (k : string) : pyres Z :=
  match dict_lookup kvs k with
  | Some (JInt z) => Return z
  | _ => Raise ValidationError
  end.

Definition req_float (kvs : list (string * json)) (k : string) : pyres Q :=
  match dict_lookup kvs k with
  | Some (JFloat q) => Return q
  | Some (JInt z) => Return (inject_Z z)
  | _ => Raise ValidationError
  end.

(** [Load( **item)]: a dict with every declared field of the right type;
    extra keys are ignored.  The field values accepted are the JSON types
    the catalog uses (strings, integers, and integers or floats for the
    rate); pydantic's lax coercions (numeric strings, whole-number floats
    for integer fields) are not modelled. *)
Definition Load_of_json (item : json) : pyres Load :=
  match item with
  | JObj kvs =>
      a <- req_str kvs "load_id" ;;
      b <- req_str kvs "origin" ;;
      c <- req_str kvs "destination" ;;
      d <- req_str kvs "pickup_datetime" ;;
      e <- req_str kvs "delivery_datetime" ;;
      f <- req_str kvs "equipment_type" ;;
      g <- req_float kvs "loadboard_rate" ;;
      h <- req_str kvs "notes" ;;
      i <- req_int kvs "weight" ;;
      j <- req_str kvs "commodity_type" ;;
      k <- req_int kvs "num_of_pieces" ;;
      l <- req_int kvs "miles" ;;
      m <- req_str kvs "dimensions" ;;
      Return (mkLoad a b c d e f g h i j k l m)
  | _ => Raise TypeError
  end.

(* ------------------------------------------------------------------ *)
(** ** The sample catalog [sampleLoads] (main.py, lines 27-73) *)

Definition sampleLoads : list json := [
  JObj [("load_id", JStr "LID-001");
        ("origin", JStr "New York, NY");
        ("destination", JStr "Chicago, IL");
        ("pickup_datetime", JStr "2025-09-29T09:00:00Z");
        ("delivery_datetime", JStr "2025-09-30T17:00:00Z");
        ("equipment_type", JStr "Van");
        ("loadboard_rate", JFloat (1800 # 1));
        ("notes", JStr "Team drivers preferred for fast delivery.");
        ("weight", JInt 42000);
        ("commodity_type", JStr "General Freight");
        ("num_of_pieces", JInt 1);
        ("miles", JInt 790);
        ("dimensions", JStr "53ft")];
  JObj [("load_id", JStr "LID-002");
        ("origin", JStr "Dallas, TX");
        ("destination", JStr "Los Angeles, CA");
        ("pickup_datetime", JStr "2025-09-29T14:00:00Z");
        ("delivery_datetime", JStr "2025-10-01T22:00:00Z");
        ("equipment_type", JStr "Reefer");
        ("loadboard_rate", JFloat (2500 # 1));
        ("notes", JStr "Must maintain temperature at 34Â°F. Produce.");
        ("weight", JInt 44000);
        ("commodity_type", JStr "Produce");
        ("num_of_pieces", JInt 1200);
        ("miles", JInt 1435);
        ("dimensions", JStr "53ft")];
  JObj [("load_id", JStr "LID-003");
        ("origin", JStr "New York, NY");
        ("destination", JStr "Miami, FL");
        ("pickup_datetime", JStr "2025-09-30T11:00:00Z");
        ("delivery_datetime", JStr "2025-10-02T15:00:00Z");
        ("equipment_type", JStr "Van");
        ("loadboard_rate", JFloat (2100 # 1));
        ("notes", JStr "No touch freight. Drop and hook at destination.");
        ("weight", JInt 38000);
        ("commodity_type", JStr "Electronics");
        ("num_of_pieces", JInt 800);
        ("miles", JInt 1285);
        ("dimensions", JStr "53ft")]
].

(* ------------------------------------------------------------------ *)
(** ** [search_loads] (GET /loads, main.py lines 151-172) *)

Definition not_found_loads : py_exc :=
  HTTPException 404 "No matching loads found".

(** One [if param: filtered_loads = [...]] step: the comprehension runs only
    when the query parameter is truthy. *)
Definition filter_if (param : option string) (keep : string -> Load -> bool)
    (loads : list Load) : list Load :=
  match truthy param with
  | Some p => filter (keep p) loads
  | None => loads
  end.

Definition search_loads (origin_q destination_q equipment_type_q : option string)
    : pyres (list Load) :=
  all_loads <- mapM Load_of_json sampleLoads ;;
  let filtered_loads := all_loads in
  let filtered_loads := filter_if origin_q
        (fun o load => str_in (lower o) (lower (origin load))) filtered_loads in
  let filtered_loads := filter_if destination_q
        (fun d load => str_in (lower d) (lower (destination load))) filtered_loads in
  let filtered_loads := filter_if equipment_type_q
        (fun e load => String.eqb (lower e) (lower (equipment_type load))) filtered_loads in
  match filtered_loads with
  | [] => Raise not_found_loads
  | _ => Return filtered_loads
  end.

(* ------------------------------------------------------------------ *)
(** ** [load_db] (main.py lines 115-122) and the server's file state *)

(** The file [./testData/loads.json]: missing, present with bytes that are
    not UTF-8 (reading raises [UnicodeDecodeError]), or present with a text
    that [json.load] parses ([Some]) or rejects ([None]). *)
Inductive fs_file : Type :=
| FileMissing
| FileUndecodable
| FileText (parsed : option json).

(** [for item in data]: lists yield their elements, dicts their keys,
    strings their characters; numbers, booleans and [None] are not
    iterable. *)
Fixpoint str_chars (s : string) : list json :=
  match s with
  | EmptyString => []
  | String c s' => JStr (String c EmptyString) :: str_chars s'
  end.

Definition py_iter (data : json) : pyres (list json) :=
  match data with
  | JArr xs => Return xs
  | JObj kvs => Return (map (fun kv => JStr (fst kv)) kvs)
  | JStr s => Return (str_chars s)
  | _ => Raise TypeError
  end.

Definition load_db (loads_file : fs_file) : pyres (list Load) :=
  match loads_file with
  | FileMissing => Return []                     (* except FileNotFoundError *)
  | FileUndecodable => Raise UnicodeDecodeError
  | FileText None => Raise JSONDecodeError
  | FileText (Some data) =>
      items <- py_iter data ;;
      mapM Load_of_json items
  end.

(* ------------------------------------------------------------------ *)
(** ** [verify_carrier] (POST /carrier/verify, main.py lines 179-202) *)

Record CarrierVerificationRequest : Type := mkCarrierVerificationRequest {
  mc_number : string
}.

(** The JSON object the handler returns: [{"eligible": .., "detail": ..}]. *)
Record verdict : Type := mkVerdict {
  eligible : bool;
  detail : string
}.

(** What [requests.get(fmcsa_url)] yields: a [RequestException] raised by
    the transport (connection error, timeout, too many redirects, ...), or
    the final response with its status code and its JSON body.  A 2xx
    answer whose body is not JSON is not represented. *)
Inductive registry_reply : Type :=
| TransportFailure
| Reply (status_code : Z) (body : json).

Definition fmcsa_url (mc_number fmcsa_api_key : string) : string :=
  "https://mobile.fmcsa.dot.gov/qc/services/carriers/" ++ mc_number
  ++ "?webkey=" ++ fmcsa_api_key.

(** [response.raise_for_status()] raises [HTTPError] for 4xx and 5xx. *)
Definition raise_for_status (status_code : Z) : bool :=
  (400 <=? status_code) && (status_code <? 600).

(** [data.get("content", [{}])[0].get("carrier", {})
        .get("carrierOperation", {}).get("carrierOperation", "N")] *)
Definition carrier_operation (data : json) : pyres json :=
  content <- py_get data "content" (JArr [JObj []]) ;;
  first <- py_index0 content ;;
  carrier <- py_get first "carrier" (JObj []) ;;
  op <- py_get carrier "carrierOperation" (JObj []) ;;
  py_get op "carrierOperation" (JStr "N").

(** [x != "OUT-OF-SERVICE"]: a value other than a string is never equal. *)
Definition py_ne_out_of_service (x : json) : bool :=
  match x with
  | JStr s => negb (String.eqb s "OUT-OF-SERVICE")
  | _ => true
  end.

Definition verify_carrier (registry : string -> registry_reply)
    (fmcsa_api_key : string) (request : CarrierVerificationRequest)
    : pyres verdict :=
  let url := fmcsa_url (mc_number request) fmcsa_api_key in
  match registry url with
  | TransportFailure =>
      (* except requests.exceptions.RequestException *)
      Raise (HTTPException 503 "Could not connect to the FMCSA API.")
  | Reply status_code body =>
      if raise_for_status status_code then
        (* except requests.exceptions.HTTPError as e *)
        if status_code =? 404 then
          Return (mkVerdict false "Carrier not found.")
        else
          Raise (HTTPException 503 "FMCSA API service is currently unavailable")
      else
        (* the lookups raise IndexError, KeyError, AttributeError or
           TypeError, none of which is a RequestException: they escape *)
        is_active <- (op <- carrier_operation body ;;
                      Return (py_ne_out_of_service op)) ;;
        if is_active then
          Return (mkVerdict true "Carrier is active and eligible")
        else
          Return (mkVerdict false "Carrier is not active or out of service")
  end.

(* ------------------------------------------------------------------ *)
(** ** [CallLog] and [save_call_log] (main.py lines 105-136) *)

Module CallLogModel.

Record CallLog : Type := mkCallLog {
  mc_number : string;
  load_id : option string;
  outcome : string;
  sentiment : string;
  negotiation_rounds : Z;
  final_rate : option Q;
  call_duration_seconds : Z
}.

(** [log.model_dump()]: a dict of every field, [None] for absent options. *)
Definition model_dump (log : CallLog) : json :=
  JObj [("mc_number", JStr (mc_number log));
        ("load_id", match load_id log with Some s => JStr s | None => JNull end);
        ("outcome", JStr (outcome log));
        ("sentiment", JStr (sentiment log));
        ("negotiation_rounds", JInt (negotiation_rounds log));
        ("final_rate", match final_rate log with Some q => JFloat q | None => JNull end);
        ("call_duration_seconds", JInt (call_duration_seconds log))].

End CallLogModel.

Import CallLogModel (CallLog, model_dump).

(** The file [./dashboard/testData/call_logs.json]:
    - [LogNoDirectory]: the directory [./dashboard/testData] is missing, so
      the file is absent and [open(log_file, "w")] raises
      FileNotFoundError;
    - [LogAbsent]: the directory exists, the file does not;
    - [LogUndecodable]: the file holds bytes that are not UTF-8, so
      [json.load] raises UnicodeDecodeError (not a JSONDecodeError);
    - [LogPresent]: the file holds a text that [json.load] parses ([Some])
      or rejects with JSONDecodeError ([None]).
    The file is written with [json.dump] (ASCII output) and read back with
    [json.load], so a written value is stored as the value itself.
    Permission and disk errors are not modelled. *)
Inductive log_store : Type :=
| LogNoDirectory
| LogAbsent
| LogUndecodable
| LogPresent (parsed : option json).

(** [logs.append(x)]: only a list has [append]. *)
Definition py_append (logs x : json) : pyres json :=
  match logs with
  | JArr xs => Return (JArr (xs ++ [x]))
  | _ => Raise AttributeError
  end.

Definition save_call_log (store : log_store) (log : CallLog) : pyres log_store :=
  logs <-
    match store with
    | LogNoDirectory | LogAbsent => Return (JArr [])  (* os.path.exists is false *)
    | LogUndecodable => Raise UnicodeDecodeError
    | LogPresent None => Return (JArr [])            (* except json.JSONDecodeError *)
    | LogPresent (Some data) => Return data
    end ;;
  logs' <- py_append logs (model_dump log) ;;
  match store with
  | LogNoDirectory => Raise FileNotFoundError        (* open(log_file, "w") *)
  | _ => Return (LogPresent (Some logs'))
  end.

(* ------------------------------------------------------------------ *)
(** ** The server state and the endpoints that touch it *)

Record server_state : Type := mkServerState {
  loads_file : fs_file;
  call_logs : log_store
}.

(** GET /loads: [search_loads] builds its records from [sampleLoads]; it does
    not call [load_db]. *)
Definition get_loads (st : server_state)
    (origin_q destination_q equipment_type_q : option string)
    : pyres (list Load) :=
  search_loads origin_q destination_q equipment_type_q.

(** POST /call-log. *)
Definition create_call_log (st : server_state) (log : CallLog)
    : pyres (server_state * string) :=
  store' <- save_call_log (call_logs st) log ;;
  Return (mkServerState (loads_file st) store', "Call log saved successfully").

(** The thirteen fields a [Load] requires. *)
Definition load_fields : list string :=
  ["load_id"; "origin"; "destination"; "pickup_datetime"; "delivery_datetime";
   "equipment_type"; "loadboard_rate"; "notes"; "weight"; "commodity_type";
   "num_of_pieces"; "miles"; "dimensions"].

(* ------------------------------------------------------------------ *)
(** ** Reading of the claims about the catalog *)

(** The catalog: the records [Load( **item)] builds from [sampleLoads]. *)
Definition catalog : list Load :=
  match mapM Load_of_json sampleLoads with
  | Return ls => ls
  | Raise _ => []
  end.

(** A filter value applies when supplied; [claim_selects] counts every
    [Some] value as supplied, [selects] only the non-empty ones (a query
    parameter [?equipment_type=] arrives as [Some ""]). *)
Definition origin_ok (p : option string) (load : Load) : bool :=
  match p with Some o => str_in (lower o) (lower (origin load)) | None => true end.

Definition destination_ok (p : option string) (load : Load) : bool :=
  match p with Some d => str_in (lower d) (lower (destination load)) | None => true end.

Definition equipment_ok (p : option string) (load : Load) : bool :=
  match p with
  | Some e => String.eqb (lower e) (lower (equipment_type load))
  | None => true
  end.

Definition claim_selects (o d e : option string) (load : Load) : bool :=
  origin_ok o load && destination_ok d load && equipment_ok e load.

Definition selects (o d e : option string) (load : Load) : bool :=
  claim_selects (truthy o) (truthy d) (truthy e) load.

(** The outcome the amended claims describe: the selected records in
    catalog order, or NotFound when there are none. *)
Definition search_result (o d e : option string) : pyres (list Load) :=
  match filter (selects o d e) catalog with
  | [] => Raise not_found_loads
  | ls => Return ls
  end.

(* ------------------------------------------------------------------ *)
(** ** Reading of the claims about the registry response *)

(** The registry bodies along which every lookup of [carrier_operation]
    meets a dict: a JSON object whose ["content"] is absent or a list whose
    first element is an object, whose ["carrier"] is absent or an object,
    whose ["carrierOperation"] is absent or an object. *)
Definition obj_or_absent (o : option json) : bool :=
  match o with
  | None => true
  | Some (JObj _) => true
  | Some _ => false
  end.

Definition well_shaped (body : json) : bool :=
  match body with
  | JObj kvs =>
      match dict_lookup kvs "content" with
      | None => true
      | Some (JArr (JObj first :: _)) =>
          match dict_lookup first "carrier" with
          | None => true
          | Some (JObj car) => obj_or_absent (dict_lookup car "carrierOperation")
          | Some _ => false
          end
      | Some _ => false
      end
  | _ => false
  end.

(** The nested operational-status field of the first carrier record, when
    present. *)
Definition first_carrier_status (body : json) : option json :=
  match body with
  | JObj kvs =>
      match dict_lookup kvs "content" with
      | Some (JArr (JObj first :: _)) =>
          match dict_lookup first "carrier" with
          | Some (JObj car) =>
              match dict_lookup car "carrierOperation" with
              | Some (JObj op) => dict_lookup op "carrierOperation"
              | _ => None
              end
          | _ => None
          end
      | _ => None
      end
  | _ => None
  end.

Definition status_out_of_service (st : option json) : bool :=
  match st with
  | Some (JStr s) => String.eqb s "OUT-OF-SERVICE"
  | _ => false
  end.

(* ------------------------------------------------------------------ *)
(** ** Reading of the claims about the call log *)

(** The sequence of records an append starts from: empty when the file is
    absent (in an existing directory) or not JSON, the list when it holds a
    JSON list; none when the file holds other JSON, undecodable bytes, or
    its directory is missing. *)
Definition persisted_sequence (store : log_store) : option (list json) :=
  match store with
  | LogNoDirectory => None
  | LogUndecodable => None
  | LogAbsent => Some []
  | LogPresent None => Some []
  | LogPresent (Some (JArr logs)) => Some logs
  | LogPresent (Some _) => None
  end.

Definition sample_call_log : CallLog :=
  CallLogModel.mkCallLog "123456" (Some "LID-001") "Booked" "Positive" 2
    (Some (1950 # 1)) 240.

(* ------------------------------------------------------------------ *)
(** ** Lemmas about the search *)

Lemma mapM_sampleLoads : mapM Load_of_json sampleLoads = Return catalog.
Proof. vm_compute. reflexivity. Qed.

Lemma filter_filter_andb {A} (f g : A -> bool) (l : list A) :
  filter f (filter g l) = filter (fun x => g x && f x) l.
Proof.
  induction l as [|x l IH]; simpl; [reflexivity|].
  destruct (g x); simpl; [destruct (f x); simpl|]; rewrite IH; reflexivity.
Qed.

Lemma filter_if_filter (p : option string) (keep : string -> Load -> bool) l :
  filter_if p keep l =
  filter (fun x => match truthy p with Some q => keep q x | None => true end) l.
Proof.
  unfold filter_if. destruct (truthy p); [reflexivity|].
  induction l as [|x l IH]; simpl; [reflexivity|]. now rewrite <- IH.
Qed.

Lemma search_loads_eq (o d e : option string) :
  search_loads o d e = search_result o d e.
Proof.
  unfold search_loads, search_result. rewrite mapM_sampleLoads. simpl bind.
  rewrite !filter_if_filter, !filter_filter_andb.
  match goal with
  | |- context [filter ?f catalog] =>
      replace (filter f catalog) with (filter (selects o d e) catalog)
  end.
  - destruct (filter (selects o d e) catalog); reflexivity.
  - apply filter_ext. intros x.
    unfold selects, claim_selects, origin_ok, destination_ok, equipment_ok.
    destruct (truthy o), (truthy d), (truthy e); simpl;
      rewrite ?andb_assoc, ?andb_true_r; reflexivity.
Qed.

Lemma search_loads_Van_ids :
  match search_loads None None (Some "Van") with
  | Return ls => map load_id ls = ["LID-001"; "LID-003"]
  | Raise _ => False
  end.
Proof. vm_compute. reflexivity. Qed.

Lemma catalog_length : length catalog = 3%nat.
Proof. vm_compute. reflexivity. Qed.

Lemma search_result_never_empty (o d e : option string) :
  search_result o d e <> Return [].
Proof.
  unfold search_result. destruct (filter (selects o d e) catalog); discriminate.
Qed.

(* ================================================================== *)
(** * Claims *)

(** C1 (amended).  For every combination of the query filters, [search_loads]
    selects, in catalog order, the records satisfying every non-empty filter:
    origin and destination as case-insensitive substrings, equipment_type as a
    case-insensitive exact match; absent or empty filters are no-ops.  It
    returns them when there is at least one and fails with 404 otherwise.
    With [equipment_type=Van] it returns LID-001 then LID-003. *)
Theorem search_loads_filters :
  (forall o d e : option string,
     filter (selects o d e) catalog <> [] ->
     search_loads o d e = Return (filter (selects o d e) catalog)) /\
  (forall o d e : option string,
     filter (selects o d e) catalog = [] ->
     search_loads o d e = Raise not_found_loads) /\
  match search_loads None None (Some "Van") with
  | Return ls => map load_id ls = ["LID-001"; "LID-003"]
  | Raise _ => False
  end.
Proof.
  split; [|split].
  - intros o d e Hne. rewrite search_loads_eq. unfold search_result.
    destruct (filter (selects o d e) catalog); [contradiction|reflexivity].
  - intros o d e He. rewrite search_loads_eq. unfold search_result.
    rewrite He. reflexivity.
  - exact search_loads_Van_ids.
Qed.

(** Witness for C1: the Van query selects records, a query matching nothing
    gets 404. *)
Lemma search_loads_filters_witness :
  filter (selects None None (Some "Van")) catalog <> [] /\
  search_loads None None (Some "Van")
    = Return (filter (selects None None (Some "Van")) catalog) /\
  filter (selects (Some "Boston") None None) catalog = [] /\
  search_loads (Some "Boston") None None = Raise not_found_loads.
Proof.
  assert (H1 : filter (selects None None (Some "Van")) catalog <> [])
    by (vm_compute; discriminate).
  assert (H2 : filter (selects (Some "Boston") None None) catalog = [])
    by (vm_compute; reflexivity).
  split; [exact H1|split; [|split; [exact H2|]]].
  - exact (proj1 search_loads_filters None None (Some "Van") H1).
  - exact (proj1 (proj2 search_loads_filters) (Some "Boston") None None H2).
Defined.

(** C1 counterexample.  [?equipment_type=] (the empty string) is a supplied
    filter that no record matches exactly, yet the truthiness guard skips it
    and the whole 3-record catalog is returned. *)
Lemma search_loads_empty_equipment_cex :
  filter (claim_selects None None (Some "")) catalog = [] /\
  search_loads None None (Some "") = Return catalog /\
  length catalog = 3%nat.
Proof. vm_compute. split; [reflexivity|split; reflexivity]. Qed.

(** C5 (amended).  [search_loads] fails with 404 "No matching loads found"
    exactly when no record satisfies every non-empty filter (absent or empty
    filters are no-ops), and it never returns an empty list. *)
Theorem search_loads_not_found :
  (forall o d e : option string,
     filter (selects o d e) catalog = [] <->
     search_loads o d e = Raise (HTTPException 404 "No matching loads found")) /\
  (forall o d e : option string, search_loads o d e <> Return []).
Proof.
  split.
  - intros o d e. rewrite search_loads_eq. unfold search_result.
    destruct (filter (selects o d e) catalog); split; intros H;
      solve [reflexivity | discriminate].
  - intros o d e. rewrite search_loads_eq. apply search_result_never_empty.
Qed.

(** C5 counterexample.  No record has equipment type [""], yet the query
    [?equipment_type=] succeeds rather than failing with 404. *)
Lemma search_loads_empty_filter_no_404 :
  filter (claim_selects None None (Some "")) catalog = [] /\
  search_loads None None (Some "") <> Raise not_found_loads.
Proof. vm_compute. split; [reflexivity|discriminate]. Qed.

(** C8.  When [./testData/loads.json] is missing, [load_db] returns the
    empty list instead of raising. *)
Theorem load_db_missing_file : load_db FileMissing = Return [].
Proof. reflexivity. Qed.

(** C10.  The response of GET /loads does not depend on the server's state
    (in particular not on the loads file, present or absent). *)
Theorem get_loads_state_independent :
  forall (st1 st2 : server_state) (o d e : option string),
    get_loads st1 o d e = get_loads st2 o d e.
Proof. intros st1 st2 o d e. reflexivity. Qed.

(* ------------------------------------------------------------------ *)
(** ** Lemmas about the carrier verifier *)

Lemma verify_carrier_reply registry key req status_code body :
  registry (fmcsa_url (mc_number req) key) = Reply status_code body ->
  verify_carrier registry key req =
  if raise_for_status status_code then
    if status_code =? 404 then Return (mkVerdict false "Carrier not found.")
    else Raise (HTTPException 503 "FMCSA API service is currently unavailable")
  else
    is_active <- (op <- carrier_operation body ;; Return (py_ne_out_of_service op)) ;;
    if is_active then Return (mkVerdict true "Carrier is active and eligible")
    else Return (mkVerdict false "Carrier is not active or out of service").
Proof. intros H. unfold verify_carrier. rewrite H. reflexivity. Qed.

Lemma raise_for_status_iff (c : Z) :
  raise_for_status c = true <-> 400 <= c < 600.
Proof.
  unfold raise_for_status. rewrite andb_true_iff, Z.leb_le, Z.ltb_lt. tauto.
Qed.

Lemma carrier_operation_well_shaped (body : json) :
  well_shaped body = true ->
  carrier_operation body =
  Return (match first_carrier_status body with Some v => v | None => JStr "N" end).
Proof.
  intros H. destruct body as [| | | | |xs|kvs]; try discriminate H.
  unfold carrier_operation, first_carrier_status. simpl in H |- *.
  destruct (dict_lookup kvs "content") as [c|] eqn:Hc; simpl.
  - destruct c as [| | | | |xs|]; try discriminate H.
    destruct xs as [|x xs]; try discriminate H.
    destruct x as [| | | | | |first]; try discriminate H. simpl.
    destruct (dict_lookup first "carrier") as [car|] eqn:Hcar; simpl.
    + destruct car as [| | | | | |car]; try discriminate H. simpl.
      destruct (dict_lookup car "carrierOperation") as [op|] eqn:Hop; simpl.
      * destruct op as [| | | | | |op]; try discriminate H. simpl.
        destruct (dict_lookup op "carrierOperation"); reflexivity.
      * reflexivity.
    + reflexivity.
  - reflexivity.
Qed.

Lemma py_ne_out_of_service_status (st : option json) :
  py_ne_out_of_service (match st with Some v => v | None => JStr "N" end)
  = negb (status_out_of_service st).
Proof. destruct st as [[]|]; reflexivity. Qed.

(** C2 (amended).  When the registry answers with a non-error status and a
    body whose nested lookups meet dicts (content absent, or a list whose
    first element is an object; carrier and carrierOperation absent or
    objects), [verify_carrier] answers "not active or out of service" exactly
    when the nested status is the string "OUT-OF-SERVICE", and "active and
    eligible" otherwise, also when the status is absent. *)
Theorem verify_carrier_status :
  forall (registry : string -> registry_reply) (key : string)
         (req : CarrierVerificationRequest) (status_code : Z) (body : json),
    registry (fmcsa_url (mc_number req) key) = Reply status_code body ->
    ~ (400 <= status_code < 600) ->
    well_shaped body = true ->
    verify_carrier registry key req =
    if status_out_of_service (first_carrier_status body)
    then Return (mkVerdict false "Carrier is not active or out of service")
    else Return (mkVerdict true "Carrier is active and eligible").
Proof.
  intros registry key req c body Hreg Hok Hshape.
  rewrite (verify_carrier_reply _ _ _ _ _ Hreg).
  destruct (raise_for_status c) eqn:Hr.
  { exfalso. apply Hok. apply raise_for_status_iff. exact Hr. }
  rewrite (carrier_operation_well_shaped _ Hshape). simpl.
  rewrite py_ne_out_of_service_status.
  destruct (status_out_of_service (first_carrier_status body)); reflexivity.
Qed.

(** Witness for C2: an out-of-service carrier, and a record without status. *)
Lemma verify_carrier_status_witness :
  verify_carrier
    (fun _ => Reply 200 (JObj [("content", JArr [JObj [("carrier", JObj
       [("carrierOperation", JObj [("carrierOperation", JStr "OUT-OF-SERVICE")])])]])]))
    "key" (mkCarrierVerificationRequest "123456")
  = Return (mkVerdict false "Carrier is not active or out of service") /\
  verify_carrier (fun _ => Reply 200 (JObj [("content", JArr [JObj []])]))
    "key" (mkCarrierVerificationRequest "123456")
  = Return (mkVerdict true "Carrier is active and eligible").
Proof.
  split.
  - exact (verify_carrier_status
      (fun _ => Reply 200 (JObj [("content", JArr [JObj [("carrier", JObj
         [("carrierOperation", JObj [("carrierOperation", JStr "OUT-OF-SERVICE")])])]])]))
      "key" (mkCarrierVerificationRequest "123456") 200 _ eq_refl
      ltac:(lia) eq_refl).
  - exact (verify_carrier_status
      (fun _ => Reply 200 (JObj [("content", JArr [JObj []])]))
      "key" (mkCarrierVerificationRequest "123456") 200 _ eq_refl
      ltac:(lia) eq_refl).
Defined.

(** C2 counterexample.  A 200 answer whose first record has ["carrier": null]
    has no status, yet [None.get] raises AttributeError instead of the
    verdict "active and eligible". *)
Lemma verify_carrier_null_carrier_cex :
  verify_carrier
    (fun _ => Reply 200 (JObj [("content", JArr [JObj [("carrier", JNull)]])]))
    "key" (mkCarrierVerificationRequest "123456")
  = Raise AttributeError.
Proof. reflexivity. Qed.

(** C6.  A 404 from the registry is answered with the verdict
    [{eligible: false, detail: "Carrier not found."}], not an error. *)
Theorem verify_carrier_not_found :
  forall (registry : string -> registry_reply) (key : string)
         (req : CarrierVerificationRequest) (body : json),
    registry (fmcsa_url (mc_number req) key) = Reply 404 body ->
    verify_carrier registry key req
    = Return (mkVerdict false "Carrier not found.").
Proof.
  intros registry key req body Hreg.
  rewrite (verify_carrier_reply _ _ _ _ _ Hreg). reflexivity.
Qed.

Lemma verify_carrier_not_found_witness :
  verify_carrier (fun _ => Reply 404 JNull) "key"
    (mkCarrierVerificationRequest "000000")
  = Return (mkVerdict false "Carrier not found.").
Proof.
  exact (verify_carrier_not_found (fun _ => Reply 404 JNull) "key"
           (mkCarrierVerificationRequest "000000") JNull eq_refl).
Defined.

(** C7.  Any other 4xx/5xx answer of the registry, and any transport
    failure, ends in an HTTPException 503 with a fixed generic detail. *)
Theorem verify_carrier_unavailable :
  forall (registry : string -> registry_reply) (key : string)
         (req : CarrierVerificationRequest),
    (forall (status_code : Z) (body : json),
       registry (fmcsa_url (mc_number req) key) = Reply status_code body ->
       400 <= status_code < 600 -> status_code <> 404 ->
       verify_carrier registry key req
       = Raise (HTTPException 503 "FMCSA API service is currently unavailable")) /\
    (registry (fmcsa_url (mc_number req) key) = TransportFailure ->
     verify_carrier registry key req
     = Raise (HTTPException 503 "Could not connect to the FMCSA API.")).
Proof.
  intros registry key req. split.
  - intros c body Hreg Hrange Hne.
    rewrite (verify_carrier_reply _ _ _ _ _ Hreg).
    apply raise_for_status_iff in Hrange. rewrite Hrange.
    apply Z.eqb_neq in Hne. rewrite Hne. reflexivity.
  - intros Hreg. unfold verify_carrier. rewrite Hreg. reflexivity.
Qed.

Lemma verify_carrier_unavailable_witness :
  verify_carrier (fun _ => Reply 500 JNull) "key"
    (mkCarrierVerificationRequest "123456")
  = Raise (HTTPException 503 "FMCSA API service is currently unavailable") /\
  verify_carrier (fun _ => TransportFailure) "key"
    (mkCarrierVerificationRequest "123456")
  = Raise (HTTPException 503 "Could not connect to the FMCSA API.").
Proof.
  split.
  - exact (proj1 (verify_carrier_unavailable (fun _ => Reply 500 JNull) "key"
             (mkCarrierVerificationRequest "123456")) 500 JNull eq_refl
             ltac:(lia) ltac:(discriminate)).
  - exact (proj2 (verify_carrier_unavailable (fun _ => TransportFailure) "key"
             (mkCarrierVerificationRequest "123456")) eq_refl).
Defined.

(** C9.  A successful answer whose ["content"] is the empty list makes
    [verify_carrier] raise IndexError, which neither [except] clause
    catches: no verdict and no 503. *)
Theorem verify_carrier_empty_content :
  forall (key : string) (req : CarrierVerificationRequest),
    verify_carrier (fun _ => Reply 200 (JObj [("content", JArr [])])) key req
    = Raise IndexError.
Proof. intros key req. reflexivity. Qed.

Lemma save_call_log_ok (store : log_store) (log : CallLog) (prior : list json) :
  persisted_sequence store = Some prior ->
  save_call_log store log
  = Return (LogPresent (Some (JArr (prior ++ [model_dump log])%list))).
Proof.
  intros H.
  destruct store as [| | |[[| | | | | |]|]]; simpl in H; try discriminate H;
    injection H as <-; reflexivity.
Qed.

Lemma save_call_log_ok_inv (store store' : log_store) (log : CallLog) :
  save_call_log store log = Return store' ->
  exists prior : list json,
    persisted_sequence store = Some prior /\
    store' = LogPresent (Some (JArr (prior ++ [model_dump log])%list)).
Proof.
  intros H.
  destruct store as [| | |[[| | | | | |]|]]; simpl in H; try discriminate H;
    injection H as <-; eexists; split; reflexivity.
Qed.

(** C3 (amended).  When the store is absent in an existing directory, holds
    text that is not JSON, or holds a JSON list, [save_call_log] succeeds and
    the store afterwards holds the prior sequence (empty for an absent or
    non-JSON file) followed by the dump of the new record: the earlier
    records are unchanged, the last one is the record, and the length grows
    by one.  A store holding JSON that is not a list makes it raise
    AttributeError, and a missing directory makes the write raise
    FileNotFoundError. *)
Theorem save_call_log_appends :
  (forall (store : log_store) (log : CallLog) (prior : list json),
     persisted_sequence store = Some prior ->
     exists store' : log_store,
       save_call_log store log = Return store' /\
       persisted_sequence store' = Some (prior ++ [model_dump log])%list /\
       last (prior ++ [model_dump log])%list JNull = model_dump log /\
       List.length (prior ++ [model_dump log])%list = S (List.length prior)) /\
  (forall (data : json) (log : CallLog),
     (forall xs, data <> JArr xs) ->
     save_call_log (LogPresent (Some data)) log = Raise AttributeError) /\
  (forall log : CallLog, save_call_log LogNoDirectory log = Raise FileNotFoundError).
Proof.
  split; [|split].
  - intros store log prior Hprior.
    exists (LogPresent (Some (JArr (prior ++ [model_dump log])%list))).
    split; [exact (save_call_log_ok store log prior Hprior)|].
    split; [reflexivity|split].
    + apply last_last.
    + rewrite length_app. simpl. lia.
  - intros data log Hnot.
    destruct data as [| | | | |xs|]; try reflexivity.
    exfalso. exact (Hnot xs eq_refl).
  - intros log. reflexivity.
Qed.

Lemma save_call_log_appends_witness :
  persisted_sequence (LogPresent (Some (JArr [JStr "earlier"])))
    = Some [JStr "earlier"] /\
  (exists store' : log_store,
    save_call_log (LogPresent (Some (JArr [JStr "earlier"]))) sample_call_log
      = Return store' /\
    persisted_sequence store'
      = Some ([JStr "earlier"] ++ [model_dump sample_call_log])%list /\
    last ([JStr "earlier"] ++ [model_dump sample_call_log])%list JNull
      = model_dump sample_call_log /\
    List.length ([JStr "earlier"] ++ [model_dump sample_call_log])%list
      = S (List.length [JStr "earlier"])) /\
  (forall xs, JStr "log" <> JArr xs) /\
  save_call_log (LogPresent (Some (JStr "log"))) sample_call_log
    = Raise AttributeError.
Proof.
  assert (H : forall xs, JStr "log" <> JArr xs) by (intros xs; discriminate).
  split; [reflexivity|split; [|split; [exact H|]]].
  - exact (proj1 save_call_log_appends (LogPresent (Some (JArr [JStr "earlier"])))
             sample_call_log [JStr "earlier"] eq_refl).
  - exact (proj1 (proj2 save_call_log_appends) (JStr "log") sample_call_log H).
Defined.

(** C3 counterexample.  A store holding valid JSON that is not a list (here
    [{}]) is neither a sequence nor unparseable: [logs.append] raises
    AttributeError and nothing is written. *)
Lemma save_call_log_dict_store_cex :
  save_call_log (LogPresent (Some (JObj []))) sample_call_log
  = Raise AttributeError.
Proof. reflexivity. Qed.

(* ================================================================== *)
(** * Further properties of the code *)

(* ------------------------------------------------------------------ *)
(** ** The call log *)

(** [save_call_log] fails exactly when the store gives no sequence to
    append to, and the exception tells which case: FileNotFoundError for a
    missing directory, UnicodeDecodeError for a file that is not UTF-8,
    AttributeError for JSON that is not a list.  A file that is not JSON
    never makes it fail. *)
Theorem save_call_log_fails_iff :
  forall (store : log_store) (log : CallLog),
    ((exists e, save_call_log store log = Raise e) <-> persisted_sequence store = None) /\
    (forall e, save_call_log store log = Raise e ->
       (store = LogNoDirectory /\ e = FileNotFoundError) \/
       (store = LogUndecodable /\ e = UnicodeDecodeError) \/
       (exists data, store = LogPresent (Some data) /\
                     (forall xs, data <> JArr xs) /\ e = AttributeError)).
Proof.
  intros store log. split.
  - split.
    + intros [e He]. destruct (persisted_sequence store) as [prior|] eqn:Hp;
        [|reflexivity].
      rewrite (save_call_log_ok store log prior Hp) in He. discriminate He.
    + intros Hp. destruct (save_call_log store log) as [store'|e] eqn:Hs;
        [|eexists; reflexivity].
      destruct (save_call_log_ok_inv _ _ _ Hs) as [prior [Hp' _]]. congruence.
  - intros e He.
    destruct store as [| | |[[| | | | | |]|]]; simpl in He; try discriminate He;
      injection He as <-;
      first [ left; split; reflexivity
            | right; left; split; reflexivity
            | right; right; eexists; split; [reflexivity|split;
                [intros xs; discriminate|reflexivity]] ].
Qed.

(** After one successful write the store holds a list, so every later
    [save_call_log] succeeds. *)
Theorem save_call_log_then_total :
  forall (store store' : log_store) (log log' : CallLog),
    save_call_log store log = Return store' ->
    exists store'', save_call_log store' log' = Return store''.
Proof.
  intros store store' log log' H.
  destruct (save_call_log_ok_inv _ _ _ H) as [prior [_ ->]].
  eexists. apply save_call_log_ok. reflexivity.
Qed.

Lemma save_call_log_then_total_witness :
  save_call_log LogAbsent sample_call_log
    = Return (LogPresent (Some (JArr [model_dump sample_call_log]))) /\
  exists store'', save_call_log (LogPresent (Some (JArr [model_dump sample_call_log])))
                    sample_call_log = Return store''.
Proof.
  split; [reflexivity|].
  exact (save_call_log_then_total LogAbsent _ sample_call_log sample_call_log eq_refl).
Defined.

(** Two writes in a row keep both records, in call order, after the prior
    sequence. *)
Theorem save_call_log_twice :
  forall (store : log_store) (log1 log2 : CallLog) (prior : list json),
    persisted_sequence store = Some prior ->
    exists store2 : log_store,
      (s1 <- save_call_log store log1 ;; save_call_log s1 log2) = Return store2 /\
      persisted_sequence store2 = Some (prior ++ [model_dump log1; model_dump log2])%list.
Proof.
  intros store log1 log2 prior H.
  exists (LogPresent (Some (JArr (prior ++ [model_dump log1; model_dump log2])%list))).
  split; [|reflexivity].
  rewrite (save_call_log_ok store log1 prior H). simpl.
  rewrite (save_call_log_ok (LogPresent (Some (JArr (prior ++ [model_dump log1])%list)))
             log2 (prior ++ [model_dump log1])%list eq_refl).
  rewrite <- app_assoc. reflexivity.
Qed.

Lemma save_call_log_twice_witness :
  persisted_sequence (LogPresent None) = Some [] /\
  exists store2 : log_store,
    (s1 <- save_call_log (LogPresent None) sample_call_log ;;
     save_call_log s1 sample_call_log) = Return store2 /\
    persisted_sequence store2
      = Some ([] ++ [model_dump sample_call_log; model_dump sample_call_log])%list.
Proof.
  split; [reflexivity|].
  exact (save_call_log_twice (LogPresent None) sample_call_log sample_call_log [] eq_refl).
Defined.

(** POST /call-log: on success it answers "Call log saved successfully",
    leaves the loads file alone and extends the persisted log by the
    record. *)
Theorem create_call_log_effect :
  forall (st st' : server_state) (log : CallLog) (msg : string),
    create_call_log st log = Return (st', msg) ->
    msg = "Call log saved successfully" /\
    loads_file st' = loads_file st /\
    exists prior : list json,
      persisted_sequence (call_logs st) = Some prior /\
      persisted_sequence (call_logs st') = Some (prior ++ [model_dump log])%list.
Proof.
  intros [lf store] st' log msg H. unfold create_call_log in H. simpl in H |- *.
  destruct (save_call_log store log) as [store'|e] eqn:Hs; simpl in H;
    [|discriminate H].
  injection H as <- <-. simpl.
  destruct (save_call_log_ok_inv _ _ _ Hs) as [prior [Hp ->]].
  split; [reflexivity|split; [reflexivity|]].
  exists prior. split; [exact Hp|reflexivity].
Qed.

Lemma create_call_log_effect_witness :
  create_call_log (mkServerState FileMissing LogAbsent) sample_call_log
    = Return (mkServerState FileMissing
                (LogPresent (Some (JArr [model_dump sample_call_log]))),
              "Call log saved successfully") /\
  "Call log saved successfully" = "Call log saved successfully" /\
  loads_file (mkServerState FileMissing
                (LogPresent (Some (JArr [model_dump sample_call_log]))))
    = loads_file (mkServerState FileMissing LogAbsent) /\
  exists prior : list json,
    persisted_sequence LogAbsent = Some prior /\
    persisted_sequence (LogPresent (Some (JArr [model_dump sample_call_log])))
      = Some (prior ++ [model_dump sample_call_log])%list.
Proof.
  split; [reflexivity|].
  exact (create_call_log_effect (mkServerState FileMissing LogAbsent) _
           sample_call_log _ eq_refl).
Defined.

(* ------------------------------------------------------------------ *)
(** ** Loading records: [Load( **item)] and [load_db] *)

Lemma req_str_cases kvs k :
  req_str kvs k = Raise ValidationError \/ exists s, req_str kvs k = Return s.
Proof. unfold req_str. destruct (dict_lookup kvs k) as [[]|]; eauto. Qed.

Lemma req_int_cases kvs k :
  req_int kvs k = Raise ValidationError \/ exists z, req_int kvs k = Return z.
Proof. unfold req_int. destruct (dict_lookup kvs k) as [[]|]; eauto. Qed.

Lemma req_float_cases kvs k :
  req_float kvs k = Raise ValidationError \/ exists q, req_float kvs k = Return q.
Proof. unfold req_float. destruct (dict_lookup kvs k) as [[]|]; eauto. Qed.

Ltac peel_fields H :=
  repeat match goal with
  | |- bind (req_str ?kvs ?k) _ = _ =>
      first [ unfold req_str at 1; rewrite H; reflexivity
            | destruct (req_str_cases kvs k) as [-> | [? ->]]; simpl; [reflexivity|] ]
  | |- bind (req_int ?kvs ?k) _ = _ =>
      first [ unfold req_int at 1; rewrite H; reflexivity
            | destruct (req_int_cases kvs k) as [-> | [? ->]]; simpl; [reflexivity|] ]
  | |- bind (req_float ?kvs ?k) _ = _ =>
      first [ unfold req_float at 1; rewrite H; reflexivity
            | destruct (req_float_cases kvs k) as [-> | [? ->]]; simpl; [reflexivity|] ]
  end.

(** [Load( **item)] on a dict lacking one of the thirteen fields raises
    ValidationError. *)
Theorem Load_of_json_missing_field :
  forall (kvs : list (string * json)) (k : string),
    In k load_fields -> dict_lookup kvs k = None ->
    Load_of_json (JObj kvs) = Raise ValidationError.
Proof.
  intros kvs k Hin H. unfold Load_of_json.
  simpl in Hin.
  repeat (destruct Hin as [<-|Hin]; [peel_fields H|]); contradiction.
Qed.

Lemma Load_of_json_missing_field_witness :
  In "miles" load_fields /\
  dict_lookup [("load_id", JStr "LID-009")] "miles" = None /\
  Load_of_json (JObj [("load_id", JStr "LID-009")]) = Raise ValidationError.
Proof.
  assert (H1 : In "miles" load_fields) by (simpl; tauto).
  assert (H2 : dict_lookup [("load_id", JStr "LID-009")] "miles" = None)
    by reflexivity.
  split; [exact H1|split; [exact H2|]].
  exact (Load_of_json_missing_field _ _ H1 H2).
Defined.

(** [load_db] tolerates only a missing file: a file that is not UTF-8
    raises UnicodeDecodeError, a file that is not JSON raises JSONDecodeError.
    JSON that is not a list never yields a load: an empty dict or an empty
    string gives [], any other such value raises TypeError. *)
Theorem load_db_non_list :
  load_db FileUndecodable = Raise UnicodeDecodeError /\
  load_db (FileText None) = Raise JSONDecodeError /\
  forall data : json,
    (forall xs, data <> JArr xs) ->
    ((data = JObj [] \/ data = JStr "") /\
     load_db (FileText (Some data)) = Return []) \/
    ((data <> JObj [] /\ data <> JStr "") /\
     load_db (FileText (Some data)) = Raise TypeError).
Proof.
  split; [reflexivity|split; [reflexivity|]].
  intros data Hnot.
  destruct data as [| | | |[|c s]|xs|[|kv kvs]];
    try (right; split; [split; discriminate|reflexivity]).
  - left. split; [right; reflexivity|reflexivity].
  - exfalso. exact (Hnot xs eq_refl).
  - left. split; [left; reflexivity|reflexivity].
Qed.

Lemma load_db_non_list_witness :
  (forall xs, JObj [("load_id", JStr "LID-001")] <> JArr xs) /\
  (((JObj [("load_id", JStr "LID-001")] = JObj [] \/
     JObj [("load_id", JStr "LID-001")] = JStr "") /\
    load_db (FileText (Some (JObj [("load_id", JStr "LID-001")]))) = Return []) \/
   ((JObj [("load_id", JStr "LID-001")] <> JObj [] /\
     JObj [("load_id", JStr "LID-001")] <> JStr "") /\
    load_db (FileText (Some (JObj [("load_id", JStr "LID-001")]))) = Raise TypeError)).
Proof.
  assert (H : forall xs, JObj [("load_id", JStr "LID-001")] <> JArr xs)
    by (intros xs; discriminate).
  split; [exact H|].
  exact (proj2 (proj2 load_db_non_list) _ H).
Defined.

(* ------------------------------------------------------------------ *)
(** ** Case-insensitivity of the search parameters *)

Lemma lower_char_idem (c : ascii) : lower_char (lower_char c) = lower_char c.
Proof.
  destruct c as [[] [] [] [] [] [] [] []]; vm_compute; reflexivity.
Qed.

Lemma lower_idem (s : string) : lower (lower s) = lower s.
Proof.
  induction s as [|c s IH]; simpl; [reflexivity|].
  rewrite lower_char_idem, IH. reflexivity.
Qed.

Lemma truthy_map_lower (o : option string) :
  truthy (option_map lower o) = option_map lower (truthy o).
Proof. destruct o as [[|c s]|]; reflexivity. Qed.

(** Lower-casing any query parameter beforehand does not change the answer
    of GET /loads. *)
Theorem search_loads_lowercase_params :
  forall o d e : option string,
    search_loads (option_map lower o) (option_map lower d) (option_map lower e)
    = search_loads o d e.
Proof.
  intros o d e. rewrite !search_loads_eq. unfold search_result.
  replace (filter (selects (option_map lower o) (option_map lower d)
                     (option_map lower e)) catalog)
    with (filter (selects o d e) catalog); [reflexivity|].
  apply filter_ext. intros x.
  unfold selects, claim_selects, origin_ok, destination_ok, equipment_ok.
  rewrite !truthy_map_lower.
  destruct (truthy o), (truthy d), (truthy e); simpl; rewrite ?lower_idem;
    reflexivity.
Qed.

(* ------------------------------------------------------------------ *)
(** ** What the carrier verifier never does *)

(** A verdict [eligible = true] is only given after a non-error answer of
    the registry whose nested status was read and is not the string
    "OUT-OF-SERVICE": a failing or unreachable registry never makes a carrier
    eligible. *)
Theorem verify_carrier_eligible_only_if :
  forall (registry : string -> registry_reply) (key : string)
         (req : CarrierVerificationRequest) (v : verdict),
    verify_carrier registry key req = Return v -> eligible v = true ->
    exists (status_code : Z) (body : json) (op : json),
      registry (fmcsa_url (mc_number req) key) = Reply status_code body /\
      ~ (400 <= status_code < 600) /\
      carrier_operation body = Return op /\
      op <> JStr "OUT-OF-SERVICE".
Proof.
  intros registry key req v H Hel. unfold verify_carrier in H.
  destruct (registry (fmcsa_url (mc_number req) key)) as [|c body] eqn:Hreg;
    [discriminate H|].
  destruct (raise_for_status c) eqn:Hr.
  - destruct (c =? 404); [injection H as <-; discriminate Hel|discriminate H].
  - destruct (carrier_operation body) as [op|e] eqn:Hop; simpl in H;
      [|discriminate H].
    destruct (py_ne_out_of_service op) eqn:Hne;
      [|injection H as <-; discriminate Hel].
    exists c, body, op. split; [reflexivity|split; [|split; [exact Hop|]]].
    + intros Hrange. apply raise_for_status_iff in Hrange. congruence.
    + intros ->. discriminate Hne.
Qed.

Lemma verify_carrier_eligible_only_if_witness :
  verify_carrier (fun _ => Reply 200 (JObj [])) "key"
    (mkCarrierVerificationRequest "123456")
    = Return (mkVerdict true "Carrier is active and eligible") /\
  eligible (mkVerdict true "Carrier is active and eligible") = true /\
  exists (status_code : Z) (body : json) (op : json),
    Reply 200 (JObj []) = Reply status_code body /\
    ~ (400 <= status_code < 600) /\
    carrier_operation body = Return op /\
    op <> JStr "OUT-OF-SERVICE".
Proof.
  split; [reflexivity|split; [reflexivity|]].
  exact (verify_carrier_eligible_only_if (fun _ => Reply 200 (JObj [])) "key"
           (mkCarrierVerificationRequest "123456") _ eq_refl eq_refl).
Defined.

(** Every exception of [verify_carrier] other than an HTTPException comes from
    reading the body of a non-error answer: registry errors and transport
    failures are always turned into HTTP answers. *)
Theorem verify_carrier_raw_exception_source :
  forall (registry : string -> registry_reply) (key : string)
         (req : CarrierVerificationRequest) (e : py_exc),
    verify_carrier registry key req = Raise e ->
    (forall (code : Z) (msg : string), e <> HTTPException code msg) ->
    exists (status_code : Z) (body : json),
      registry (fmcsa_url (mc_number req) key) = Reply status_code body /\
      ~ (400 <= status_code < 600) /\
      carrier_operation body = Raise e.
Proof.
  intros registry key req e H Hraw. unfold verify_carrier in H.
  destruct (registry (fmcsa_url (mc_number req) key)) as [|c body] eqn:Hreg.
  - injection H as <-. exfalso. eapply Hraw. reflexivity.
  - destruct (raise_for_status c) eqn:Hr.
    + destruct (c =? 404); [discriminate H|].
      injection H as <-. exfalso. eapply Hraw. reflexivity.
    + destruct (carrier_operation body) as [op|e'] eqn:Hop; simpl in H.
      * destruct (py_ne_out_of_service op); discriminate H.
      * injection H as ->. exists c, body.
        split; [reflexivity|split; [|exact Hop]].
        intros Hrange. apply raise_for_status_iff in Hrange. congruence.
Qed.

Lemma verify_carrier_raw_exception_source_witness :
  verify_carrier (fun _ => Reply 200 (JArr [])) "key"
    (mkCarrierVerificationRequest "123456") = Raise AttributeError /\
  (forall (code : Z) (msg : string), AttributeError <> HTTPException code msg) /\
  exists (status_code : Z) (body : json),
    Reply 200 (JArr []) = Reply status_code body /\
    ~ (400 <= status_code < 600) /\
    carrier_operation body = Raise AttributeError.
Proof.
  assert (H : forall (code : Z) (msg : string), AttributeError <> HTTPException code msg)
    by (intros; discriminate).
  split; [reflexivity|split; [exact H|]].
  exact (verify_carrier_raw_exception_source (fun _ => Reply 200 (JArr [])) "key"
           (mkCarrierVerificationRequest "123456") AttributeError eq_refl H).
Defined.
